(** * GraphLab Canvas variable resolver and distributed logistic classifier

    A shallow embedding of

    - [canvas/inspect.py]: [_find_variable_name], [find_vars] and
      [__climb_frame_stack], which walk the interpreter's call-frame chain
      to find the local name an object is bound to and register it with
      the Canvas target;
    - [distributed/toolkits/classifier/logistic_classifier.py]:
      [submit_training_job], which forwards its hyperparameters to the
      supervised-learning backend.

    Python objects are references (identity is the address), frames are
    the interpreter's linked frame objects, a dictionary is kept as its
    list of items in iteration order, exceptions are an error monad and
    the Canvas target is a log of the calls it received.  What the
    interpreter provides comes in as an argument: the current frame, the
    number of nested calls its recursion limit still allows, and the
    built-in [str.lower]. *)

From stdpp Require Import base list strings gmap.

Set Default Proof Using "Type".

(** ** Python objects *)

(** A reference to a Python object: the singleton [None] or the address of
    a heap object.  Two references denote the same object exactly when
    they are equal. *)
Inductive pyref : Type :=
  | PyNone
  | PyObj (addr : nat).

#[global] Instance pyref_eq_dec : EqDecision pyref.
Proof. solve_decision. Defined.

(** The contents of a heap object, as far as [==] looks at them. *)
Inductive pyvalue : Type :=
  | VInt (z : Z)
  | VStr (s : string)
  | VList (items : list Z).

#[global] Instance pyvalue_eq_dec : EqDecision pyvalue.
Proof. solve_decision. Defined.

(** Python's [a == b] on the objects above: [None] equals only [None];
    two heap objects are equal when their contents are. *)
Definition py_eq (h : gmap nat pyvalue) (a b : pyref) : bool :=
  match a, b with
  | PyNone, PyNone => true
  | PyObj x, PyObj y =>
      match h !! x, h !! y with
      | Some v, Some w => bool_decide (v = w)
      | _, _ => false
      end
  | _, _ => false
  end.

(** Modelled from the spec: [graphlab.canvas._same_object], which is not
    part of the sources at hand; the spec gives it as the primitive
    [same_object(a, b)], "true iff a and b are the identical object
    instance". *)
Definition _same_object (a b : pyref) : bool := bool_decide (a = b).

(** ** Strings *)

(** [s.startswith(p)] *)
Fixpoint startswith (s p : string) {struct p} : bool :=
  match p, s with
  | EmptyString, _ => true
  | String c p', String d s' => bool_decide (c = d) && startswith s' p'
  | String _ _, EmptyString => false
  end.

(** [needle in hay] on strings: [needle] occurs somewhere in [hay]. *)
Fixpoint str_contains (needle hay : string) : bool :=
  startswith hay needle ||
  match hay with
  | EmptyString => false
  | String _ rest => str_contains needle rest
  end.

(** ** Call frames *)

(** A dictionary, as the list of its items in iteration order. *)
Abbreviation dict := (list (string * pyref)).

(** [key in d.keys()] *)
Definition dict_has_key (key : string) (d : dict) : bool :=
  existsb (fun kv => bool_decide (kv.1 = key)) d.

(** A frame object: its local variables, the name of the code object it
    runs ([frame.f_code.co_name]) and the caller's frame ([None] at the
    bottom of the stack). *)
#[local] Unset Elimination Schemes.
Inductive frame : Type :=
  Frame { f_locals : dict; co_name : string; f_back : option frame }.
#[local] Set Elimination Schemes.

(** Number of frames from [f] down to the bottom of the stack. *)
Fixpoint stack_depth (f : frame) : nat :=
  match f with
  | Frame _ _ None => 1
  | Frame _ _ (Some parent) => S (stack_depth parent)
  end.

(** [f], its caller, the caller's caller, ... *)
Fixpoint frame_chain (f : frame) : list frame :=
  f :: match f with
       | Frame _ _ None => []
       | Frame _ _ (Some parent) => frame_chain parent
       end.

(** ** Exceptions *)

Inductive exn : Type :=
  | AttributeError
  | RecursionError.

Inductive exc (A : Type) : Type :=
  | Ret (a : A)
  | Raise (e : exn).
Arguments Ret {A} a.
Arguments Raise {A} e.

#[global] Instance exc_ret : MRet exc := fun _ a => Ret a.

#[global] Instance exc_bind : MBind exc := fun _ _ k m =>
  match m with
  | Ret a => k a
  | Raise e => Raise e
  end.

(** Attribute access on a value that is a frame or [None]: [None] has no
    attribute. *)
Definition get_f_back (v : option frame) : exc (option frame) :=
  match v with
  | Some f => Ret (f_back f)
  | None => Raise AttributeError
  end.

Definition get_f_locals (v : option frame) : exc dict :=
  match v with
  | Some f => Ret (f_locals f)
  | None => Raise AttributeError
  end.

(** ** canvas/inspect.py *)

(** The condition of [__climb_frame_stack]:
    ['self' in frame.f_locals.keys() or 'show' in frame.f_code.co_name] *)
Definition skip_frame (f : frame) : bool :=
  dict_has_key "self" (f_locals f) || str_contains "show" (co_name f).

(** [__climb_frame_stack(frame)], with [fr] for its parameter [frame].
    The function calls itself once per frame it passes, and every call
    takes one more level of the interpreter's stack: [room] is the number
    of nested calls the recursion limit still allows where the first call
    is made.  A call that no longer fits raises [RecursionError]; a call
    on [None], past the outermost frame, raises on reading [f_locals]. *)
Fixpoint __climb_frame_stack (room : nat) (fr : option frame) : exc frame :=
  match room with
  | 0 => Raise RecursionError
  | S room' =>
      match fr with
      | None => Raise AttributeError
      | Some f =>
          if skip_frame f then __climb_frame_stack room' (f_back f)
          else Ret f
      end
  end.

(** The number of calls of [__climb_frame_stack] that run, the first one
    included. *)
Fixpoint climb_calls (room : nat) (fr : option frame) : nat :=
  match room with
  | 0 => 0
  | S room' =>
      match fr with
      | None => 1
      | Some f =>
          if skip_frame f then S (climb_calls room' (f_back f)) else 1
      end
  end.

(** The result of [_find_variable_name]: [(k, v)] or [(None, None)].  The
    name is a string or [None]; the object is whatever the name was bound
    to, which can be the object [None] itself. *)
Abbreviation resolution := (option string * pyref)%type.

(** The loop of [_find_variable_name] over the items of
    [variableDictionary]. *)
Fixpoint scan_locals (variableDictionary : dict) (var : pyref) : resolution :=
  match variableDictionary with
  | [] => (None, PyNone)
  | (k, v) :: rest =>
      if startswith k "_" then scan_locals rest var
      else if _same_object var v then (Some k, v)
      else scan_locals rest var
  end.

(** The value of [frame] after the first statement of the [try] block,
    [frame = frame.f_back.f_back]. *)
Definition two_frames_up (currentframe : option frame) : exc (option frame) :=
  caller ← get_f_back currentframe; get_f_back caller.

(** The outcome of the [try] block of [_find_variable_name], before the
    handler: the frame [__climb_frame_stack] returned, or the exception
    raised on the way.  [currentframe] is what [inspect.currentframe()]
    returned and [room] the number of nested calls still allowed there. *)
Definition stack_walk (room : nat) (currentframe : option frame) : exc frame :=
  frame ← two_frames_up currentframe; __climb_frame_stack room frame.

(** [finalFrame] after the [try ... except] statement.  The handler
    [finalFrame = frame] reads the local [frame], which is still the
    current frame when the first statement of the block raised and the
    frame two levels up when the climb raised. *)
Definition final_frame (room : nat) (currentframe : option frame)
  : option frame :=
  match two_frames_up currentframe with
  | Raise _ => currentframe
  | Ret frame =>
      match __climb_frame_stack room frame with
      | Ret finalFrame => Some finalFrame
      | Raise _ => frame
      end
  end.

(** [_find_variable_name(var)], where [currentframe] is the value of
    [inspect.currentframe()]: the frame of this very call, or [None] on
    an interpreter without frame support.  The read of
    [finalFrame.f_locals] is outside the [try] block, so an exception
    there leaves the function.  The bare [except] catches whatever the
    block raised, a [RecursionError] of the climb included. *)
Definition _find_variable_name (room : nat) (currentframe : option frame)
    (var : pyref) : exc resolution :=
  variableDictionary ← get_f_locals (final_frame room currentframe);
  mret (scan_locals variableDictionary var).

(** The Canvas target, as the list of the [add_variable] calls it has
    received, oldest first. *)
Abbreviation target_log := (list (list string * pyref)).

(** [target.add_variable(path, variable)] *)
Definition add_variable (path : list string) (variable : pyref)
    (target : target_log) : target_log :=
  target ++ [(path, variable)].

(** [find_vars]: the value returned (or the exception raised) and the
    target afterwards.  [currentframe] is the frame in which the nested
    call of [_find_variable_name] runs. *)
Definition find_vars (room : nat) (currentframe : option frame) (var : pyref)
    (target : target_log) : exc (option string) * target_log :=
  match _find_variable_name room currentframe var with
  | Raise e => (Raise e, target)
  | Ret (variable_name, variable) =>
      match variable_name with
      | Some name => (Ret variable_name, add_variable [name] variable target)
      | None => (Ret variable_name, target)
      end
  end.

(** The frame of a call: [inspect.currentframe()] inside a function
    [name] with locals [locals], called from [caller]. *)
Definition call_frame (name : string) (locals : dict) (caller : option frame)
  : option frame :=
  Some (Frame locals name caller).

(** The frame in which [_find_variable_name(var)] runs when it is called
    by [find_vars(var)], itself called from [caller]; [target] is the
    object bound to the local of that name in [find_vars]. *)
Definition resolver_frame (var target : pyref) (caller : option frame)
  : option frame :=
  call_frame "_find_variable_name" [("var", var)]
    (call_frame "find_vars" [("var", var); ("target", target)] caller).

(** ** distributed/toolkits/classifier/logistic_classifier.py *)

(** The lowercase form of one character of ASCII text. *)
Definition lower_char (c : Ascii.ascii) : Ascii.ascii :=
  let n := Ascii.nat_of_ascii c in
  if (65 <=? n)%nat && (n <=? 90)%nat then Ascii.ascii_of_nat (n + 32) else c.

(** The lowercase form of ASCII text: every capital letter replaced by
    its small letter.  This is what [str.lower] does on ASCII text; it is
    used in examples in the place of the built-in. *)
Fixpoint lower (s : string) : string :=
  match s with
  | EmptyString => EmptyString
  | String c rest => String (lower_char c) (lower rest)
  end.

(** The parameters of [submit_training_job].  All but [solver], whose
    characters the function reads, are references it only passes on. *)
Record training_args : Type := TrainingArgs {
  env : pyref;
  dataset : pyref;
  target : pyref;
  features : pyref;
  l2_penalty : pyref;
  l1_penalty : pyref;
  solver : string;
  feature_rescaling : pyref;
  convergence_threshold : pyref;
  step_size : pyref;
  lbfgs_memory_level : pyref;
  max_iterations : pyref;
  class_weights : pyref;
  validation_set : pyref }.

(** One call of [_sl.create]: its three positional arguments and its
    keyword arguments. *)
Record create_call : Type := CreateCall {
  cr_dataset : pyref;
  cr_target : pyref;
  cr_model_name : string;
  cr_env : pyref;
  cr_features : pyref;
  cr_validation_set : pyref;
  cr_l2_penalty : pyref;
  cr_l1_penalty : pyref;
  cr_feature_rescaling : pyref;
  cr_convergence_threshold : pyref;
  cr_step_size : pyref;
  cr_solver : string;
  cr_lbfgs_memory_level : pyref;
  cr_max_iterations : pyref;
  cr_class_weights : pyref }.

(** What the function leaves behind outside itself: the events sent to
    the metric tracker and the calls made to the backend, oldest first. *)
Record services : Type := Services {
  tracked : list string;
  created : list create_call }.

Section LogisticClassifier.

(** The built-in [str.lower] of the interpreter, on encoded text.  On
    text outside ASCII its result depends on the kind of string and on
    the version of the language, and need not have the length of its
    argument. *)
Variable str_lower : string -> string.

(** [_sl.create], the supervised-learning backend: the job object it
    returns, or the exception it raises, for a given call. *)
Variable sl_create : create_call -> exc pyref.

(** [_mt._get_metric_tracker().track(event)] *)
Definition track (event : string) (w : services) : services :=
  {| tracked := tracked w ++ [event]; created := created w |}.

(** [_sl.create(...)], recording the call. *)
Definition create (call : create_call) (w : services)
  : exc pyref * services :=
  (sl_create call, {| tracked := tracked w; created := created w ++ [call] |}).

Definition submit_training_job (a : training_args) (w : services)
  : exc pyref * services :=
  let w := track
    "distributed.toolkit.classifier.logistic_classifier.submit_training_job" w in
  let model_name := "classifier_logistic_regression" in
  let solver := str_lower (solver a) in
  let '(dml_obj, w) :=
    create {| cr_dataset := dataset a;
              cr_target := target a;
              cr_model_name := model_name;
              cr_env := env a;
              cr_features := features a;
              cr_validation_set := validation_set a;
              cr_l2_penalty := l2_penalty a;
              cr_l1_penalty := l1_penalty a;
              cr_feature_rescaling := feature_rescaling a;
              cr_convergence_threshold := convergence_threshold a;
              cr_step_size := step_size a;
              cr_solver := solver;
              cr_lbfgs_memory_level := lbfgs_memory_level a;
              cr_max_iterations := max_iterations a;
              cr_class_weights := class_weights a |} w in
  (dml_obj, w).

End LogisticClassifier.

(** ** Specification vocabulary *)

(** The skip predicate in the words of the specification: the frame's
    locals contain a binding named [self], or the name of its function
    contains the substring [show]. *)
Definition skips (f : frame) : Prop :=
  (∃ v, ("self", v) ∈ f_locals f) ∨
  (∃ pre post, co_name f = pre +:+ "show" +:+ post).

(** An item of a frame's locals that the scan may return for [var]: its
    name does not start with an underscore and it is bound to the very
    object [var]. *)
Definition eligible (var : pyref) (item : string * pyref) : Prop :=
  startswith item.1 "_" = false ∧ item.2 = var.

(** [n] is the first eligible name for [var] in the iteration order of
    the dictionary [d]. *)
Definition first_binding (d : dict) (var : pyref) (n : string) : Prop :=
  ∃ before after,
    d = before ++ (n, var) :: after ∧
    startswith n "_" = false ∧
    Forall (λ item, ¬ eligible var item) before.

(** The outermost frame of the stack that [f] belongs to: the one with
    no caller, where a climb that skips every frame ends. *)
Definition outermost_frame (f : frame) : option frame := last (frame_chain f).

(** An ASCII capital letter. *)
Definition is_upper (c : Ascii.ascii) : bool :=
  let n := Ascii.nat_of_ascii c in (65 <=? n)%nat && (n <=? 90)%nat.

(** ASCII text: every character is below 128. *)
Fixpoint is_ascii (s : string) : bool :=
  match s with
  | EmptyString => true
  | String c rest => (Ascii.nat_of_ascii c <? 128)%nat && is_ascii rest
  end.

(** [d] is the lowercase form of the ASCII character [c]: the small
    letter, 32 places further, of a capital letter, and [c] itself
    otherwise. *)
Definition lowercase_char_of (c d : Ascii.ascii) : Prop :=
  if is_upper c then Ascii.nat_of_ascii d = Ascii.nat_of_ascii c + 32
  else d = c.

(** [t] is [s] with every character in its lowercase form. *)
Inductive lowercase_of : string → string → Prop :=
  | lowercase_empty : lowercase_of "" ""
  | lowercase_step (c d : Ascii.ascii) (s t : string) :
      lowercase_char_of c d → lowercase_of s t →
      lowercase_of (String c s) (String d t).

(** What is known of [str.lower] whatever the kind of string: on ASCII
    text it puts every character in its lowercase form. *)
Definition lowers_ascii_text (str_lower : string → string) : Prop :=
  ∀ s, is_ascii s = true → lowercase_of s (str_lower s).

(** The nested calls still allowed in the frame [currentframe] when the
    recursion limit is [recursionlimit] ([sys.getrecursionlimit()], 1000
    unless the program changed it) and the stack holds interpreted frames
    only: each frame on the stack has used one level. *)
Definition room_for (recursionlimit : nat) (currentframe : option frame) : nat :=
  recursionlimit - from_option stack_depth 0 currentframe.

(** ** Example stacks *)

(** The objects of the examples. *)
Definition data_obj : pyref := PyObj 2.
Definition thread_obj : pyref := PyObj 1.
Definition canvas_target : pyref := PyObj 9.

(** A [threading.Thread] subclass whose [run(self)] binds [data] and
    calls [find_vars(data)]: every frame under the call is a method. *)
Definition thread_bootstrap : frame :=
  Frame [("self", thread_obj)] "_bootstrap" None.
Definition thread_bootstrap_inner : frame :=
  Frame [("self", thread_obj)] "_bootstrap_inner" (Some thread_bootstrap).
Definition thread_run : frame :=
  Frame [("self", thread_obj); ("data", data_obj)] "run"
    (Some thread_bootstrap_inner).
Definition in_thread_run : option frame :=
  resolver_frame data_obj canvas_target (Some thread_run).

(** A script that binds [data] at top level and calls [data.show()],
    which goes through two methods before [find_vars(self)]. *)
Definition user_module (locals : dict) : frame := Frame locals "<module>" None.
Definition through_two_methods (locals : dict) (var : pyref) : option frame :=
  resolver_frame var canvas_target
    (Some (Frame [("self", var)] "render"
       (Some (Frame [("self", var); ("width", PyObj 7)] "plot"
          (Some (user_module locals)))))).

(** The top-level names of the example scripts. *)
Definition script_locals : dict := [("__name__", PyObj 5); ("data", data_obj)].
Definition three_names : dict :=
  [("_", data_obj); ("data", data_obj); ("alias", data_obj)].

(** [n] nested method calls on [receiver], the outermost one made from
    [base]. *)
Fixpoint method_frames (n : nat) (receiver : pyref) (base : frame) : frame :=
  match n with
  | 0 => base
  | S n' =>
      Frame [("self", receiver)] "render"
        (Some (method_frames n' receiver base))
  end.

(** A script that binds its data at top level and reaches [find_vars(var)]
    through [n] nested method calls on [receiver]. *)
Definition through_methods (n : nat) (locals : dict) (receiver var : pyref)
  : option frame :=
  resolver_frame var canvas_target
    (Some (method_frames n receiver (user_module locals))).

(** A script 600 method calls deep when it reaches [find_vars(data)]. *)
Definition deep_in_methods : option frame :=
  through_methods 600 script_locals thread_obj data_obj.

(** The same script going through a plain function [show_in_browser(obj)]
    that has no [self]. *)
Definition through_show_function (locals : dict) (var : pyref) : option frame :=
  resolver_frame var canvas_target
    (Some (Frame [("obj", var)] "show_in_browser" (Some (user_module locals)))).

(** [find_vars(var)] called directly from the top level of a script. *)
Definition from_top_level (locals : dict) (var : pyref) : option frame :=
  resolver_frame var canvas_target (Some (user_module locals)).

(** [_find_variable_name(var)] called without its wrapper from the top
    level of a script: there is no frame two levels up. *)
Definition unwrapped_from_top_level (locals : dict) (var : pyref) : option frame :=
  call_frame "_find_variable_name" [("var", var)] (Some (user_module locals)).

(** [y = [1, 2, 3]; x = [1, 2, 3]]: two distinct lists with equal
    contents. *)
Definition list_x : pyref := PyObj 10.
Definition list_y : pyref := PyObj 11.
Definition two_equal_lists : gmap nat pyvalue :=
  <[10 := VList [1; 2; 3]%Z]> (<[11 := VList [1; 2; 3]%Z]> ∅).

(** ** Further vocabulary and examples *)

(** [s] holds an ASCII capital letter. *)
Fixpoint has_upper (s : string) : bool :=
  match s with
  | EmptyString => false
  | String c rest => is_upper c || has_upper rest
  end.

(** The arguments [a] with another [solver]. *)
Definition with_solver (s : string) (a : training_args) : training_args :=
  {| env := env a; dataset := dataset a; target := target a;
     features := features a; l2_penalty := l2_penalty a;
     l1_penalty := l1_penalty a; solver := s;
     feature_rescaling := feature_rescaling a;
     convergence_threshold := convergence_threshold a;
     step_size := step_size a; lbfgs_memory_level := lbfgs_memory_level a;
     max_iterations := max_iterations a; class_weights := class_weights a;
     validation_set := validation_set a |}.

(** [run(self)] of the thread calling [find_vars(self)]. *)
Definition in_thread_run_self : option frame :=
  resolver_frame thread_obj canvas_target (Some thread_run).

(** [_find_variable_name(data)] started with no caller at all (as the
    function a new thread runs): its own frame when it reads
    [finalFrame.f_locals], with [frame] and [finalFrame] bound to the
    frame object. *)
Definition resolver_alone : frame :=
  Frame [("var", data_obj); ("frame", PyObj 20); ("finalFrame", PyObj 20)]
    "_find_variable_name" None.

(** Some arguments of a training job. *)
Definition sample_args (s : string) : training_args :=
  {| env := PyObj 30; dataset := PyObj 31; target := PyObj 32;
     features := PyNone; l2_penalty := PyObj 33; l1_penalty := PyObj 34;
     solver := s; feature_rescaling := PyObj 35;
     convergence_threshold := PyObj 36; step_size := PyObj 37;
     lbfgs_memory_level := PyObj 38; max_iterations := PyObj 39;
     class_weights := PyNone; validation_set := PyNone |}.

(** A backend that answers every call with the dataset it was given, and
    services that have seen nothing yet. *)
Definition sample_backend (call : create_call) : exc pyref :=
  Ret (cr_dataset call).
Definition no_services : services := {| tracked := []; created := [] |}.

(** * Properties *)

(** ** Strings and dictionaries *)

Lemma startswith_spec (s p : string) :
  startswith s p = true ↔ ∃ rest, s = p +:+ rest.
Proof.
  revert s. induction p as [|c p IH]; intros s; simpl.
  - split; [intros _; by exists s | done].
  - destruct s as [|d s]; simpl.
    + split; [done | intros [rest Hrest]; discriminate].
    + rewrite andb_true_iff, bool_decide_eq_true, IH. split.
      * intros [-> [rest ->]]. by exists rest.
      * intros [rest Hrest]. injection Hrest as -> ->. eauto.
Qed.

(** A name is skipped by the scan exactly when its first character is an
    underscore. *)
Lemma startswith_underscore (k : string) :
  startswith k "_" = true ↔ ∃ rest, k = "_" +:+ rest.
Proof. apply startswith_spec. Qed.

#[global] Arguments startswith : simpl never.

Lemma str_contains_spec (needle hay : string) :
  str_contains needle hay = true ↔ ∃ pre post, hay = pre +:+ needle +:+ post.
Proof.
  induction hay as [|c hay IH]; simpl.
  - rewrite orb_false_r, startswith_spec. split.
    + intros [rest Hrest]. by exists "", rest.
    + intros [[|? ?] [post Hpost]]; [by exists post | discriminate].
  - rewrite orb_true_iff, startswith_spec, IH. split.
    + intros [[rest Hrest] | (pre & post & ->)].
      * by exists "", rest.
      * by exists (String c pre), post.
    + intros [[|d pre] [post Hpost]].
      * left. by exists post.
      * right. injection Hpost as -> ->. by exists pre, post.
Qed.

Lemma dict_has_key_spec (key : string) (d : dict) :
  dict_has_key key d = true ↔ ∃ v, (key, v) ∈ d.
Proof.
  unfold dict_has_key. rewrite existsb_exists. split.
  - intros ([k v] & Hin & Hk). apply bool_decide_eq_true in Hk.
    simpl in Hk. subst k. exists v. by apply list_elem_of_In.
  - intros [v Hin]. exists (key, v). split.
    + by apply list_elem_of_In.
    + by apply bool_decide_eq_true.
Qed.

(** ** Frames *)

Lemma frame_stack_ind (P : frame → Prop) :
  (∀ locals name, P (Frame locals name None)) →
  (∀ locals name parent, P parent → P (Frame locals name (Some parent))) →
  ∀ f, P f.
Proof.
  intros Hbottom Hcall.
  fix IH 1. intros [locals name [parent|]].
  - apply Hcall, IH.
  - apply Hbottom.
Qed.

Lemma frame_chain_unfold (f : frame) :
  frame_chain f = f :: from_option frame_chain [] (f_back f).
Proof. by destruct f as [? ? [?|]]. Qed.

Lemma frame_chain_length (f : frame) : length (frame_chain f) = stack_depth f.
Proof.
  induction f as [|? ? ? IH] using frame_stack_ind; simpl;
    [done | by rewrite <- IH].
Qed.

Lemma stack_depth_parent (f parent : frame) :
  f_back f = Some parent → stack_depth f = S (stack_depth parent).
Proof. destruct f as [? ? [?|]]; simpl; [by intros [= ->] | done]. Qed.


Lemma frame_chain_head (f g : frame) (l1 l2 : list frame) :
  frame_chain f = l1 → frame_chain g = l2 → l1 = l2 → f = g.
Proof.
  intros <- <- Heq. rewrite (frame_chain_unfold f), (frame_chain_unfold g) in Heq.
  by injection Heq.
Qed.

Lemma frame_chain_self (f : frame) : f ∈ frame_chain f.
Proof. rewrite frame_chain_unfold. by left. Qed.

(** ** The skip predicate and the climb *)

Lemma skip_frame_spec (f : frame) : skip_frame f = true ↔ skips f.
Proof.
  unfold skip_frame, skips.
  by rewrite orb_true_iff, dict_has_key_spec, str_contains_spec.
Qed.

Lemma skip_frame_false (f : frame) : skip_frame f = false ↔ ¬ skips f.
Proof. rewrite <- skip_frame_spec. by destruct (skip_frame f). Qed.

Lemma climb_unfold (room : nat) (f : frame) :
  __climb_frame_stack (S room) (Some f) =
  if skip_frame f then __climb_frame_stack room (f_back f) else Ret f.
Proof. done. Qed.

Lemma climb_none (room : nat) : ∃ e, __climb_frame_stack room None = Raise e.
Proof. destruct room; by eexists. Qed.

(** The climb returns [g] exactly when [g] is the first frame of the
    chain that is not skipped and the frames before it are few enough
    for the calls that pass them. *)
Lemma climb_ret (room : nat) (f g : frame) :
  __climb_frame_stack room (Some f) = Ret g ↔
  ∃ passed, frame_chain f = passed ++ frame_chain g ∧
            Forall skips passed ∧ ¬ skips g ∧ length passed < room.
Proof.
  split.
  - revert f. induction room as [|room IH]; intros f; [done|].
    rewrite climb_unfold. destruct (skip_frame f) eqn:Hskip.
    + destruct (f_back f) as [parent|] eqn:Hback.
      * intros (passed & Hchain & Hpassed & Hg & Hroom)%IH.
        exists (f :: passed). rewrite frame_chain_unfold, Hback. simpl.
        split_and!; [by rewrite Hchain | | done | lia].
        constructor; [by apply skip_frame_spec | done].
      * destruct (climb_none room) as [e ->]. done.
    + intros [= <-]. exists []. apply skip_frame_false in Hskip.
      split_and!; [done | constructor | done | simpl; lia].
  - intros (passed & Hchain & Hpassed & Hg & Hroom). revert room f Hchain Hroom.
    induction Hpassed as [|x passed Hx _ IH]; intros [|room] f Hchain Hroom;
      simpl in Hroom; try lia.
    + assert (f = g) as -> by (by eapply frame_chain_head).
      rewrite climb_unfold. by apply skip_frame_false in Hg as ->.
    + rewrite frame_chain_unfold in Hchain. injection Hchain as -> Hrest.
      rewrite climb_unfold. apply skip_frame_spec in Hx as ->.
      destruct (f_back x) as [parent|]; simpl in Hrest.
      * apply IH; [done | lia].
      * rewrite (frame_chain_unfold g) in Hrest. by destruct passed.
Qed.

Lemma climb_ret_in_chain (room : nat) (f g : frame) :
  __climb_frame_stack room (Some f) = Ret g → g ∈ frame_chain f.
Proof.
  intros (passed & -> & _)%climb_ret. apply elem_of_app. right.
  apply frame_chain_self.
Qed.

(** When every frame down to the bottom of the stack is skipped the climb
    raises, on the call on [None] or earlier for want of room. *)
Lemma climb_raise (room : nat) (f : frame) :
  Forall skips (frame_chain f) → ∃ e, __climb_frame_stack room (Some f) = Raise e.
Proof.
  intros Hall. destruct (__climb_frame_stack room (Some f)) as [g|e] eqn:Hclimb;
    [|by exists e].
  pose proof (climb_ret_in_chain _ _ _ Hclimb) as Hin.
  apply climb_ret in Hclimb as (_ & _ & _ & Hg & _).
  rewrite Forall_forall in Hall. destruct Hg. by apply Hall.
Qed.


(** ** The scan of the chosen frame's locals *)

Lemma scan_locals_cons (k : string) (v : pyref) (rest : dict) (var : pyref) :
  scan_locals ((k, v) :: rest) var =
  if decide (eligible var (k, v)) then (Some k, v) else scan_locals rest var.
Proof.
  unfold eligible, _same_object; cbn [scan_locals fst snd].
  destruct (startswith k "_") eqn:Hk.
  - rewrite decide_False; [done | by intros [? _]].
  - unfold _same_object. case_bool_decide as Hv.
    + subst v. by rewrite decide_True.
    + rewrite decide_False; [done | by intros [_ ->]].
Qed.

Lemma scan_locals_first (d : dict) (var : pyref) (n : string) :
  first_binding d var n → scan_locals d var = (Some n, var).
Proof.
  intros (before & after & -> & Hn & Hbefore).
  induction Hbefore as [|[k v] before Hkv _ IH]; simpl app.
  - rewrite scan_locals_cons, decide_True; done.
  - by rewrite scan_locals_cons, decide_False.
Qed.

Lemma scan_locals_none (d : dict) (var : pyref) :
  Forall (λ item, ¬ eligible var item) d → scan_locals d var = (None, PyNone).
Proof.
  induction 1 as [|[k v] d Hkv _ IH]; [done|].
  by rewrite scan_locals_cons, decide_False.
Qed.

(** The scan has exactly two kinds of result. *)
Lemma scan_locals_cases (d : dict) (var : pyref) :
  (∃ n, first_binding d var n ∧ scan_locals d var = (Some n, var)) ∨
  (Forall (λ item, ¬ eligible var item) d ∧ scan_locals d var = (None, PyNone)).
Proof.
  induction d as [|[k v] d IH].
  - right. by split.
  - rewrite scan_locals_cons. case_decide as Hkv.
    + left. destruct Hkv as [Hk Hv]; simpl in *. subst v.
      exists k. split; [|done]. exists [], d. by split_and!.
    + destruct IH as [(n & (before & after & -> & Hn & Hbefore) & Hscan)|[Hall Hscan]].
      * left. exists n. split; [|done].
        exists ((k, v) :: before), after. split_and!; [done | done |].
        by constructor.
      * right. split; [by constructor | done].
Qed.

Lemma first_binding_unique (d : dict) (var : pyref) (n m : string) :
  first_binding d var n → first_binding d var m → n = m.
Proof.
  intros Hn%scan_locals_first Hm%scan_locals_first. congruence.
Qed.

Lemma first_binding_exists (d : dict) (var : pyref) (n : string) :
  (n, var) ∈ d → startswith n "_" = false → ∃ m, first_binding d var m.
Proof.
  intros Hin Hn.
  destruct (scan_locals_cases d var) as [(m & Hm & _)|[Hall _]]; [by exists m|].
  rewrite Forall_forall in Hall. by destruct (Hall _ Hin).
Qed.

(** ** The resolver *)

Lemma find_variable_name_unfold (room : nat) (currentframe : option frame)
    (var : pyref) :
  _find_variable_name room currentframe var =
  match final_frame room currentframe with
  | Some f => Ret (scan_locals (f_locals f) var)
  | None => Raise AttributeError
  end.
Proof.
  unfold _find_variable_name. by destruct (final_frame room currentframe).
Qed.

(** When the frame two levels up exists, the chosen frame is the one the
    climb returns or, when the climb raises, that starting frame. *)
Lemma final_frame_start (room : nat) (currentframe : option frame)
    (start : frame) :
  two_frames_up currentframe = Ret (Some start) →
  final_frame room currentframe =
  Some (match __climb_frame_stack room (Some start) with
        | Ret g => g
        | Raise _ => start
        end).
Proof.
  unfold final_frame. intros ->.
  by destruct (__climb_frame_stack room (Some start)).
Qed.

Lemma find_vars_unfold (room : nat) (currentframe : option frame) (var : pyref)
    (target : target_log) :
  find_vars room currentframe var target =
  match _find_variable_name room currentframe var with
  | Ret (Some n, v) => (Ret (Some n), target ++ [([n], v)])
  | Ret (None, _) => (Ret None, target)
  | Raise e => (Raise e, target)
  end.
Proof.
  unfold find_vars.
  by destruct (_find_variable_name room currentframe var) as [[[?|] ?]|].
Qed.

Lemma stack_walk_start (room : nat) (currentframe : option frame)
    (start : frame) :
  two_frames_up currentframe = Ret (Some start) →
  stack_walk room currentframe = __climb_frame_stack room (Some start).
Proof. unfold stack_walk. by intros ->. Qed.

Lemma stack_walk_ret (room : nat) (currentframe : option frame) (g : frame) :
  stack_walk room currentframe = Ret g →
  ∃ start, two_frames_up currentframe = Ret (Some start) ∧
           __climb_frame_stack room (Some start) = Ret g.
Proof.
  unfold stack_walk. destruct (two_frames_up currentframe) as [[start|]|]; simpl.
  - intros Hclimb. by exists start.
  - by destruct (climb_none room) as [e ->].
  - done.
Qed.

Lemma first_binding_elem_of (d : dict) (var : pyref) (n : string) :
  first_binding d var n → (n, var) ∈ d ∧ startswith n "_" = false.
Proof.
  intros (before & after & -> & Hn & _). split; [|done].
  apply elem_of_app. right. by left.
Qed.

(** A dictionary binds a key once. *)
Lemma dict_lookup_unique (d : dict) (k : string) (v w : pyref) :
  NoDup d.*1 → (k, v) ∈ d → (k, w) ∈ d → v = w.
Proof.
  induction d as [|[k' v'] d IH]; simpl.
  - by intros _ ?%elem_of_nil.
  - intros [Hk' Hd]%NoDup_cons [Hv|Hv]%elem_of_cons [Hw|Hw]%elem_of_cons;
      simplify_eq.
    + done.
    + destruct Hk'. apply list_elem_of_fmap. by exists (k', w).
    + destruct Hk'. apply list_elem_of_fmap. by exists (k', v).
    + by apply IH.
Qed.

Lemma frame_chain_depth (f g : frame) :
  g ∈ frame_chain f → stack_depth g ≤ stack_depth f.
Proof.
  induction f as [locals name|locals name parent IH] using frame_stack_ind;
    simpl.
  - by intros ->%list_elem_of_singleton.
  - intros [->|Hg]%elem_of_cons; [done|]. apply IH in Hg. lia.
Qed.

Lemma outermost_frame_self (f : frame) :
  outermost_frame f = Some f ↔ f_back f = None.
Proof.
  unfold outermost_frame. destruct f as [locals name [parent|]]; simpl.
  - split; [|done]. intros Hlast.
    assert (Frame locals name (Some parent) ∈ frame_chain parent) as Hin.
    { rewrite (frame_chain_unfold parent) in Hlast |- *.
      rewrite last_cons_cons in Hlast. by apply last_Some_elem_of. }
    apply frame_chain_depth in Hin. simpl in Hin. lia.
  - done.
Qed.

(** The chain of [n] nested method calls over [base]. *)
Lemma method_frames_chain (n : nat) (receiver : pyref) (base : frame) :
  ∃ passed,
    frame_chain (method_frames n receiver base) = passed ++ frame_chain base ∧
    Forall skips passed ∧ length passed = n.
Proof.
  induction n as [|n (passed & Hchain & Hpassed & Hlen)]; simpl.
  - by exists [].
  - exists (method_frames (S n) receiver base :: passed). simpl.
    split_and!; [by rewrite Hchain | | by rewrite Hlen].
    constructor; [|done]. left. simpl. exists receiver. by left.
Qed.

(** ** C1: the first eligible name is returned *)

Example first_of_two_names :
  let cur := from_top_level three_names data_obj in
  _find_variable_name (room_for 1000 cur) cur data_obj
  = Ret (Some "data", data_obj).
Proof. reflexivity. Qed.

(** C1: when the object [o] is bound in the chosen frame under a name [n]
    that does not start with an underscore, the resolver returns a name
    for [o]: the first such name in the iteration order of the frame's
    locals, which is [n] itself when [n] is that first name.  [find_vars]
    hands the same name to its caller. *)
Theorem resolve_returns_first_bound_name
    (room : nat) (currentframe : option frame) (chosen : frame) (o : pyref)
    (n : string) :
  final_frame room currentframe = Some chosen →
  (n, o) ∈ f_locals chosen →
  startswith n "_" = false →
  ∃ m, first_binding (f_locals chosen) o m ∧
       _find_variable_name room currentframe o = Ret (Some m, o) ∧
       (∀ target, (find_vars room currentframe o target).1 = Ret (Some m)) ∧
       (first_binding (f_locals chosen) o n → m = n).
Proof.
  intros Hchosen Hin Hn.
  destruct (first_binding_exists _ _ _ Hin Hn) as [m Hm]. exists m.
  assert (_find_variable_name room currentframe o = Ret (Some m, o)) as Hres.
  { rewrite find_variable_name_unfold, Hchosen. f_equal.
    by apply scan_locals_first. }
  split_and!; [done | done | |].
  - intros target. by rewrite find_vars_unfold, Hres.
  - intros Hfirst. by eapply first_binding_unique.
Qed.

Lemma resolve_returns_first_bound_name_witness :
  ∃ m, first_binding three_names data_obj m ∧
       _find_variable_name 997 (from_top_level three_names data_obj) data_obj
       = Ret (Some m, data_obj) ∧
       (∀ target,
          (find_vars 997 (from_top_level three_names data_obj) data_obj
             target).1 = Ret (Some m)) ∧
       (first_binding three_names data_obj "alias" → m = "alias").
Proof.
  apply (resolve_returns_first_bound_name 997
           (from_top_level three_names data_obj) (user_module three_names)
           data_obj "alias").
  - reflexivity.
  - apply list_elem_of_In. simpl. auto.
  - reflexivity.
Defined.

(** ** C2: which frames the climb skips *)

Example climb_past_two_methods :
  let cur := through_two_methods script_locals data_obj in
  _find_variable_name (room_for 1000 cur) cur data_obj
  = Ret (Some "data", data_obj).
Proof. reflexivity. Qed.

Example climb_past_show_function :
  let cur := through_show_function script_locals data_obj in
  _find_variable_name (room_for 1000 cur) cur data_obj
  = Ret (Some "data", data_obj).
Proof. reflexivity. Qed.

(** 603 frames deep under the default limit of 1000, the climb has room
    for 397 calls and 600 frames to pass: it raises, and the frame that
    is scanned is the innermost method, which binds only [self]. *)
Example climb_gives_up_on_deep_stack :
  room_for 1000 deep_in_methods = 397 ∧
  stack_walk (room_for 1000 deep_in_methods) deep_in_methods
  = Raise RecursionError ∧
  find_vars (room_for 1000 deep_in_methods) deep_in_methods data_obj []
  = (Ret None, []).
Proof. by vm_compute. Qed.

(** Two frames that each bind [self] under a frame that is not skipped:
    the climb passes both when it has room for three calls. *)
Lemma climb_two_self_frames (room : nat) (l1 l2 : dict) (n1 n2 : string)
    (v1 v2 : pyref) (user : frame) :
  ("self", v1) ∈ l1 → ("self", v2) ∈ l2 → ¬ skips user → 2 < room →
  __climb_frame_stack room
    (Some (Frame l1 n1 (Some (Frame l2 n2 (Some user))))) = Ret user.
Proof.
  intros H1 H2 Huser Hroom. apply climb_ret.
  exists [Frame l1 n1 (Some (Frame l2 n2 (Some user))); Frame l2 n2 (Some user)].
  split_and!; [done | | done | done].
  constructor; [left; simpl; eauto|].
  constructor; [left; simpl; eauto | constructor].
Qed.

(** A frame whose function name contains [show] is passed whatever its
    locals are, when there is room for two calls. *)
Lemma climb_show_frame (room : nat) (locals : dict) (pre post : string)
    (user : frame) :
  ¬ skips user → 1 < room →
  __climb_frame_stack room
    (Some (Frame locals (pre +:+ "show" +:+ post) (Some user))) = Ret user.
Proof.
  intros Huser Hroom. apply climb_ret.
  exists [Frame locals (pre +:+ "show" +:+ post) (Some user)].
  split_and!; [done | | done | done].
  constructor; [right; simpl; eauto | constructor].
Qed.

(** C2, as stated, fails on a deep stack: every call of the climb takes a
    level of the interpreter's stack, and 600 method frames cannot be
    passed in the 397 calls left under the default recursion limit.  The
    climb raises, the handler absorbs it, and the frame searched is not
    the first unskipped one. *)
Lemma climb_does_not_pass_every_skipped_frame :
  ¬ (∀ (currentframe : option frame) (start g : frame) (passed : list frame),
       two_frames_up currentframe = Ret (Some start) →
       frame_chain start = passed ++ frame_chain g →
       Forall skips passed →
       ¬ skips g →
       final_frame (room_for 1000 currentframe) currentframe = Some g).
Proof.
  intros Hclaim.
  destruct (method_frames_chain 600 thread_obj (user_module script_locals))
    as (passed & Hchain & Hpassed & _).
  assert (final_frame (room_for 1000 deep_in_methods) deep_in_methods
          = Some (user_module script_locals)) as Hfinal.
  { apply (Hclaim deep_in_methods
             (method_frames 600 thread_obj (user_module script_locals))
             (user_module script_locals) passed);
      [reflexivity | done | done |].
    apply skip_frame_false. reflexivity. }
  apply (f_equal (fmap co_name)) in Hfinal. vm_compute in Hfinal.
  discriminate Hfinal.
Qed.

(** C2, amended: a frame is skipped by the climb exactly when its locals
    bind the name [self] or the name of its function contains [show]; the
    climb from [f] returns [g] exactly when [g] is the first frame of the
    chain from [f] that is not skipped, every frame before it being
    skipped, and those frames are fewer than the nested calls the
    recursion limit still allows; that frame is then the one whose locals
    the resolver scans. *)
Theorem climb_stops_at_first_unskipped (room : nat) (f : frame) :
  (skip_frame f = true ↔ skips f) ∧
  (∀ g, __climb_frame_stack room (Some f) = Ret g ↔
        ∃ passed, frame_chain f = passed ++ frame_chain g ∧
                  Forall skips passed ∧ ¬ skips g ∧ length passed < room) ∧
  (∀ currentframe g var,
     two_frames_up currentframe = Ret (Some f) →
     __climb_frame_stack room (Some f) = Ret g →
     final_frame room currentframe = Some g ∧
     _find_variable_name room currentframe var
     = Ret (scan_locals (f_locals g) var)).
Proof.
  split_and!.
  - apply skip_frame_spec.
  - intros g. apply climb_ret.
  - intros currentframe g var Hup Hclimb.
    assert (final_frame room currentframe = Some g) as Hfinal.
    { by rewrite (final_frame_start _ _ _ Hup), Hclimb. }
    split; [done|]. by rewrite find_variable_name_unfold, Hfinal.
Qed.

Lemma climb_stops_at_first_unskipped_witness :
  final_frame 995 (through_two_methods script_locals data_obj)
  = Some (user_module script_locals) ∧
  _find_variable_name 995 (through_two_methods script_locals data_obj) data_obj
  = Ret (scan_locals script_locals data_obj).
Proof.
  apply (proj2 (proj2 (climb_stops_at_first_unskipped 995
    (Frame [("self", data_obj)] "render"
       (Some (Frame [("self", data_obj); ("width", PyObj 7)] "plot"
          (Some (user_module script_locals)))))))).
  - reflexivity.
  - reflexivity.
Defined.

(** ** C3: identity, not equality *)

Example equal_lists_distinct_names :
  let cur := from_top_level [("y", list_y); ("x", list_x)] list_x in
  py_eq two_equal_lists list_x list_y = true ∧
  list_x ≠ list_y ∧
  _find_variable_name (room_for 1000 cur) cur list_x = Ret (Some "x", list_x).
Proof. by split_and!. Qed.

(** C3: let [a] and [b] be distinct objects that compare equal with [==],
    bound in the chosen frame to [x] and [y].  Resolving [a] returns a
    name other than [y], whatever else the frame binds, and returns [x]
    as soon as [a] has no other name there that could be returned. *)
Theorem identity_not_equality_governs_matching
    (h : gmap nat pyvalue) (room : nat) (currentframe : option frame)
    (chosen : frame) (a b : pyref) :
  final_frame room currentframe = Some chosen →
  NoDup (f_locals chosen).*1 →
  a ≠ b →
  py_eq h a b = true →
  ("x", a) ∈ f_locals chosen →
  ("y", b) ∈ f_locals chosen →
  (∃ m, _find_variable_name room currentframe a = Ret (Some m, a) ∧ m ≠ "y") ∧
  ((∀ k, (k, a) ∈ f_locals chosen → startswith k "_" = false → k = "x") →
   _find_variable_name room currentframe a = Ret (Some "x", a)).
Proof.
  intros Hchosen Hdict Hab _ Hx Hy.
  destruct (first_binding_exists _ _ "x" Hx eq_refl) as [m Hm].
  assert (_find_variable_name room currentframe a = Ret (Some m, a)) as Hres.
  { rewrite find_variable_name_unfold, Hchosen. f_equal.
    by apply scan_locals_first. }
  apply first_binding_elem_of in Hm as [Hin Hvisible].
  split.
  - exists m. split; [done|]. intros ->.
    by apply Hab, (dict_lookup_unique (f_locals chosen) "y").
  - intros Honly. by rewrite Hres, (Honly m Hin Hvisible).
Qed.

Lemma identity_not_equality_governs_matching_witness :
  (∃ m, _find_variable_name 997
          (from_top_level [("y", list_y); ("x", list_x)] list_x) list_x
        = Ret (Some m, list_x) ∧ m ≠ "y") ∧
  ((∀ k, (k, list_x) ∈ [("y", list_y); ("x", list_x)] →
         startswith k "_" = false → k = "x") →
   _find_variable_name 997
     (from_top_level [("y", list_y); ("x", list_x)] list_x) list_x
   = Ret (Some "x", list_x)).
Proof.
  apply (identity_not_equality_governs_matching two_equal_lists 997
           (from_top_level [("y", list_y); ("x", list_x)] list_x)
           (user_module [("y", list_y); ("x", list_x)]) list_x list_y).
  - reflexivity.
  - simpl. apply NoDup_ListNoDup. repeat constructor; simpl; intuition discriminate.
  - discriminate.
  - reflexivity.
  - apply list_elem_of_In. simpl. auto.
  - apply list_elem_of_In. simpl. auto.
Defined.

(** ** C4 and C5: what happens when the walk fails *)

Example thread_walk_fails :
  stack_walk (room_for 1000 in_thread_run) in_thread_run
  = Raise AttributeError ∧
  final_frame (room_for 1000 in_thread_run) in_thread_run = Some thread_run ∧
  outermost_frame thread_run = Some thread_bootstrap.
Proof. by split_and!. Qed.

Example thread_data_is_registered :
  find_vars (room_for 1000 in_thread_run) in_thread_run data_obj []
  = (Ret (Some "data"), [(["data"], data_obj)]).
Proof. reflexivity. Qed.

(** Without a frame two levels up the handler leaves [finalFrame] at
    [None], and reading its locals raises outside the [try] block. *)
Example unwrapped_call_raises :
  let cur := unwrapped_from_top_level [("data", data_obj)] data_obj in
  stack_walk (room_for 1000 cur) cur = Raise AttributeError ∧
  _find_variable_name (room_for 1000 cur) cur data_obj = Raise AttributeError.
Proof. by split. Qed.

(** [find_vars] called from the outermost frame scans that frame. *)
Example top_level_call_resolves :
  let cur := from_top_level [("data", data_obj)] data_obj in
  find_vars (room_for 1000 cur) cur data_obj []
  = (Ret (Some "data"), [(["data"], data_obj)]).
Proof. reflexivity. Qed.

(** C4, as stated, fails: a walk that runs past the outermost frame is
    absorbed, but the result need not be the no-match pair and the
    target may receive a registration.  In [thread_run] every frame
    down the stack binds [self]; the climb raises and the scan of
    [thread_run] itself finds [data]. *)
Lemma walk_failure_is_not_always_no_match :
  ¬ (∀ (room : nat) (currentframe : option frame) (var : pyref)
       (target : target_log),
       (∃ e, stack_walk room currentframe = Raise e) →
       _find_variable_name room currentframe var = Ret (None, PyNone) ∧
       (find_vars room currentframe var target).2 = target).
Proof.
  intros Hclaim.
  destruct (Hclaim (room_for 1000 in_thread_run) in_thread_run data_obj [])
    as [Hres _].
  - by exists AttributeError.
  - discriminate Hres.
Qed.

(** C4, amended: when the frame two levels up exists and the climb from
    it fails, nothing is raised; the resolver falls back to that starting
    frame and scans its locals.  It returns and registers the first
    eligible name for the target there, and gives the no-match pair, with
    the target untouched, only when the frame has none. *)
Theorem climb_failure_falls_back_to_start
    (room : nat) (currentframe : option frame) (start : frame) (e : exn)
    (var : pyref) (target : target_log) :
  two_frames_up currentframe = Ret (Some start) →
  stack_walk room currentframe = Raise e →
  _find_variable_name room currentframe var
  = Ret (scan_locals (f_locals start) var) ∧
  ((∃ n, first_binding (f_locals start) var n ∧
         find_vars room currentframe var target
         = (Ret (Some n), target ++ [([n], var)])) ∨
   (Forall (λ item, ¬ eligible var item) (f_locals start) ∧
    _find_variable_name room currentframe var = Ret (None, PyNone) ∧
    find_vars room currentframe var target = (Ret None, target))).
Proof.
  intros Hup Hwalk. rewrite (stack_walk_start _ _ _ Hup) in Hwalk.
  assert (_find_variable_name room currentframe var
          = Ret (scan_locals (f_locals start) var)) as Hres.
  { by rewrite find_variable_name_unfold, (final_frame_start _ _ _ Hup), Hwalk. }
  split; [done|]. rewrite find_vars_unfold, Hres.
  destruct (scan_locals_cases (f_locals start) var)
    as [(n & Hn & ->)|[Hnone ->]]; [left; by exists n | by right].
Qed.

Lemma climb_failure_falls_back_to_start_witness :
  _find_variable_name 995 in_thread_run data_obj
  = Ret (scan_locals (f_locals thread_run) data_obj) ∧
  ((∃ n, first_binding (f_locals thread_run) data_obj n ∧
         find_vars 995 in_thread_run data_obj []
         = (Ret (Some n), [] ++ [([n], data_obj)])) ∨
   (Forall (λ item, ¬ eligible data_obj item) (f_locals thread_run) ∧
    _find_variable_name 995 in_thread_run data_obj = Ret (None, PyNone) ∧
    find_vars 995 in_thread_run data_obj [] = (Ret None, []))).
Proof.
  apply (climb_failure_falls_back_to_start 995 in_thread_run thread_run
           AttributeError data_obj []); reflexivity.
Defined.

(** C5, as stated, fails: in [thread_run] the climb reaches the outermost
    frame [thread_bootstrap] with the skip predicate still true, and the
    frame that is scanned is [thread_run], where the climb began. *)
Lemma climb_past_top_does_not_use_last_frame :
  ¬ (∀ (room : nat) (currentframe : option frame) (start : frame),
       two_frames_up currentframe = Ret (Some start) →
       Forall skips (frame_chain start) →
       stack_depth start < room →
       final_frame room currentframe = outermost_frame start).
Proof.
  intros Hclaim.
  assert (final_frame 995 in_thread_run = outermost_frame thread_run) as Heq.
  { apply Hclaim; [done | | simpl; lia].
    repeat (constructor; [left; simpl; eexists; by left|]). constructor. }
  discriminate Heq.
Qed.

(** C5, amended: when the climb runs past the outermost frame with the
    skip predicate still true, the frame used for the scan is the frame
    where the climb began, two levels above the resolver; it is the last
    frame the climb reached only when it has no caller itself. *)
Theorem climb_past_top_uses_start_frame
    (room : nat) (currentframe : option frame) (start : frame) (var : pyref) :
  two_frames_up currentframe = Ret (Some start) →
  Forall skips (frame_chain start) →
  final_frame room currentframe = Some start ∧
  _find_variable_name room currentframe var
  = Ret (scan_locals (f_locals start) var) ∧
  (outermost_frame start = Some start ↔ f_back start = None).
Proof.
  intros Hup [e Hall]%(climb_raise room).
  assert (final_frame room currentframe = Some start) as Hfinal.
  { by rewrite (final_frame_start _ _ _ Hup), Hall. }
  split_and!; [done | | apply outermost_frame_self].
  by rewrite find_variable_name_unfold, Hfinal.
Qed.

Lemma climb_past_top_uses_start_frame_witness :
  final_frame 995 in_thread_run = Some thread_run ∧
  _find_variable_name 995 in_thread_run data_obj
  = Ret (scan_locals (f_locals thread_run) data_obj) ∧
  (outermost_frame thread_run = Some thread_run ↔ f_back thread_run = None).
Proof.
  apply (climb_past_top_uses_start_frame 995 in_thread_run thread_run data_obj).
  - reflexivity.
  - repeat (constructor; [left; simpl; eexists; by left|]). constructor.
Defined.

(** ** C6: names that start with an underscore *)

Example hidden_name_is_not_resolved :
  let cur := from_top_level [("_hidden", data_obj)] data_obj in
  find_vars (room_for 1000 cur) cur data_obj [] = (Ret None, []).
Proof. reflexivity. Qed.

(** C6: the resolver never returns a name that starts with an underscore
    and [find_vars] never registers one; when every name the chosen frame
    binds to the target starts with an underscore, the result is the
    no-match pair and nothing is registered. *)
Theorem underscore_names_never_resolved
    (room : nat) (currentframe : option frame) (chosen : frame) (var : pyref)
    (target : target_log) :
  final_frame room currentframe = Some chosen →
  (∀ n v, _find_variable_name room currentframe var = Ret (Some n, v) →
          startswith n "_" = false) ∧
  (∀ call, call ∈ (find_vars room currentframe var target).2 →
           call ∈ target ∨
           ∃ n, call = ([n], var) ∧ startswith n "_" = false) ∧
  ((∀ k, (k, var) ∈ f_locals chosen → startswith k "_" = true) →
   _find_variable_name room currentframe var = Ret (None, PyNone) ∧
   find_vars room currentframe var target = (Ret None, target)).
Proof.
  intros Hchosen.
  rewrite find_vars_unfold, find_variable_name_unfold, Hchosen.
  destruct (scan_locals_cases (f_locals chosen) var)
    as [(m & [Hin Hm]%first_binding_elem_of & ->)|[Hnone ->]]; simpl.
  - split_and!.
    + by intros n v [= <- <-].
    + intros call [Hcall| ->%list_elem_of_singleton]%elem_of_app; eauto.
    + intros Hhidden. rewrite (Hhidden m Hin) in Hm. discriminate.
  - split_and!; [done | by left | done].
Qed.

Lemma underscore_names_never_resolved_witness :
  _find_variable_name 997 (from_top_level [("_hidden", data_obj)] data_obj)
    data_obj
  = Ret (None, PyNone) ∧
  find_vars 997 (from_top_level [("_hidden", data_obj)] data_obj) data_obj []
  = (Ret None, []).
Proof.
  apply (proj2 (proj2 (underscore_names_never_resolved 997
    (from_top_level [("_hidden", data_obj)] data_obj)
    (user_module [("_hidden", data_obj)]) data_obj [] eq_refl))).
  intros k [[= -> ]|[]%elem_of_nil]%elem_of_cons. reflexivity.
Defined.

(** ** C7: registration *)

(** C7: [find_vars] calls [add_variable] exactly when a name was
    resolved.  The call is made once, with the one-element path holding
    that name and with the matched object, which is the target object
    itself; the caller gets the name alone.  When no name was resolved
    the caller gets [None] and the target is left as it was; an exception
    of the resolver passes through with the target untouched. *)
Theorem registration_iff_resolved
    (room : nat) (currentframe : option frame) (var : pyref)
    (target : target_log) :
  match _find_variable_name room currentframe var with
  | Ret (Some n, v) =>
      v = var ∧
      find_vars room currentframe var target
      = (Ret (Some n), target ++ [([n], var)])
  | Ret (None, _) =>
      find_vars room currentframe var target = (Ret None, target)
  | Raise e => find_vars room currentframe var target = (Raise e, target)
  end ∧
  ((find_vars room currentframe var target).2 ≠ target ↔
   ∃ n v, _find_variable_name room currentframe var = Ret (Some n, v)).
Proof.
  rewrite find_vars_unfold, find_variable_name_unfold.
  destruct (final_frame room currentframe) as [chosen|]; simpl.
  - destruct (scan_locals_cases (f_locals chosen) var)
      as [(m & _ & ->)|[_ ->]]; simpl.
    + split; [done|]. split; [by eauto|]. intros _ Heq.
      apply (f_equal length) in Heq. rewrite length_app in Heq. simpl in Heq. lia.
    + split; [done|]. split; [done | by intros (? & ? & [=])].
  - split; [done|]. split; [done | by intros (? & ? & [=])].
Qed.

(** ** C8: the shape of the resolution result *)

Example none_bound_to_a_name :
  let cur := from_top_level [("x", PyNone)] PyNone in
  _find_variable_name (room_for 1000 cur) cur PyNone = Ret (Some "x", PyNone).
Proof. reflexivity. Qed.

(** C8, as stated, fails when the target is the object [None]: with
    [x = None] in the chosen frame the resolver returns [('x', None)], a
    name together with an object field that holds [None]. *)
Lemma resolution_can_pair_name_with_none :
  ¬ (∀ (room : nat) (currentframe : option frame) (var : pyref)
       (name : option string) (object : pyref),
       _find_variable_name room currentframe var = Ret (name, object) →
       (name = None ∧ object = PyNone) ∨ (name ≠ None ∧ object ≠ PyNone)).
Proof.
  intros Hclaim.
  destruct (Hclaim 997 (from_top_level [("x", PyNone)] PyNone) PyNone
              (Some "x") PyNone eq_refl) as [[? _]|[_ ?]]; done.
Qed.

(** C8, amended: a resolution result is either the no-match pair, with
    both fields [None], or a name together with the target object
    itself.  A name is never absent while the object is present, and the
    object field holds [None] next to a name only when the target is the
    object [None]. *)
Theorem resolution_is_no_match_or_name_with_target
    (room : nat) (currentframe : option frame) (var : pyref)
    (name : option string) (object : pyref) :
  _find_variable_name room currentframe var = Ret (name, object) →
  ((name = None ∧ object = PyNone) ∨ (∃ n, name = Some n ∧ object = var)) ∧
  (name = None → object = PyNone) ∧
  (name ≠ None → object = PyNone → var = PyNone).
Proof.
  rewrite find_variable_name_unfold.
  destruct (final_frame room currentframe) as [chosen|]; [|done].
  destruct (scan_locals_cases (f_locals chosen) var)
    as [(m & _ & ->)|[_ ->]]; intros [= <- <-].
  - split_and!; [right; by exists m | done | by intros _ <-].
  - split_and!; [by left | done | done].
Qed.

Lemma resolution_is_no_match_or_name_with_target_witness :
  ((Some "x" = None ∧ PyNone = PyNone) ∨
   (∃ n, Some "x" = Some n ∧ PyNone = PyNone)) ∧
  (Some "x" = None → PyNone = PyNone) ∧
  (Some "x" ≠ None → PyNone = PyNone → PyNone = PyNone).
Proof.
  apply (resolution_is_no_match_or_name_with_target 997
           (from_top_level [("x", PyNone)] PyNone) PyNone (Some "x") PyNone).
  reflexivity.
Defined.

(** ** C9: termination *)



Example thread_climb_within_depth :
  stack_depth thread_run = 3 ∧
  climb_calls 995 (Some thread_run) = 4 ∧
  climb_calls 2 (Some thread_run) = 2 ∧
  __climb_frame_stack 2 (Some thread_run) = Raise RecursionError.
Proof. by split_and!. Qed.



(** ** C10: submit_training_job *)

Lemma lower_char_not_upper (c : Ascii.ascii) : is_upper (lower_char c) = false.
Proof.
  unfold lower_char, is_upper.
  destruct c as [[] [] [] [] [] [] [] []]; reflexivity.
Qed.

Lemma lower_char_fixed (c : Ascii.ascii) :
  is_upper c = false → lower_char c = c.
Proof. unfold lower_char, is_upper. by intros ->. Qed.

Lemma lower_char_fixed_inv (c : Ascii.ascii) :
  lower_char c = c → is_upper c = false.
Proof.
  destruct c as [[] [] [] [] [] [] [] []]; cbv;
    intros H; first [reflexivity | discriminate H].
Qed.

(** [lower] leaves no capital behind and changes nothing else. *)
Lemma lower_idempotent (s : string) : lower (lower s) = lower s.
Proof.
  induction s as [|c s IH]; simpl; [done|].
  by rewrite IH, (lower_char_fixed _ (lower_char_not_upper c)).
Qed.

Lemma lower_fixed_iff (s : string) : lower s = s ↔ has_upper s = false.
Proof.
  induction s as [|c s IH]; simpl; [done|].
  rewrite orb_false_iff, <- IH. split.
  - intros [= Hc Hs]. split; [by apply lower_char_fixed_inv | done].
  - intros [Hc ->]. by rewrite lower_char_fixed.
Qed.

Lemma has_upper_lower (s : string) : has_upper (lower s) = false.
Proof.
  induction s as [|c s IH]; simpl; [done|].
  by rewrite lower_char_not_upper, IH.
Qed.

Lemma lower_length (s : string) : String.length (lower s) = String.length s.
Proof. induction s as [|c s IH]; simpl; [done | by rewrite IH]. Qed.

(** The lowercase form of a character is the one [lower_char] gives. *)
Lemma lowercase_char_of_lower_char (c d : Ascii.ascii) :
  lowercase_char_of c d ↔ d = lower_char c.
Proof.
  unfold lowercase_char_of, lower_char, is_upper.
  destruct (_ && _) eqn:Hupper; [|done]. split.
  - intros <-. by rewrite Ascii.ascii_nat_embedding.
  - intros ->. apply Ascii.nat_ascii_embedding.
    apply andb_true_iff in Hupper as [_ Hle%Nat.leb_le]. lia.
Qed.

Lemma lowercase_of_lower (s t : string) : lowercase_of s t ↔ t = lower s.
Proof.
  split.
  - induction 1 as [|c d s t Hc%lowercase_char_of_lower_char _ ->]; simpl;
      [done | by subst d].
  - intros ->. induction s as [|c s IH]; simpl; constructor; [|done].
    by apply lowercase_char_of_lower_char.
Qed.

Lemma lower_lowers_ascii_text : lowers_ascii_text lower.
Proof. intros s _. by apply lowercase_of_lower. Qed.

Example lower_solver_name : lower "L-BFGS" = "l-bfgs" ∧ lower "auto" = "auto".
Proof. by split. Qed.

(** C10: [submit_training_job] makes exactly one call of [_sl.create].
    Every argument of that call is the parameter of the same name, passed
    on as received, except [solver], of which [str.lower] is passed, and
    the model name, which is always [classifier_logistic_regression]; what
    the backend returns (or raises) is what the function returns.  For a
    solver name in ASCII the name passed is thus the name given with
    every capital letter replaced by its small letter. *)
Theorem submit_training_job_forwards
    (str_lower : string → string) (sl_create : create_call → exc pyref)
    (a : training_args) (w : services) :
  ∃ call,
    created (submit_training_job str_lower sl_create a w).2
    = created w ++ [call] ∧
    (submit_training_job str_lower sl_create a w).1 = sl_create call ∧
    cr_model_name call = "classifier_logistic_regression" ∧
    cr_solver call = str_lower (solver a) ∧
    (lowers_ascii_text str_lower → is_ascii (solver a) = true →
     lowercase_of (solver a) (cr_solver call)) ∧
    cr_dataset call = dataset a ∧
    cr_target call = target a ∧
    cr_env call = env a ∧
    cr_features call = features a ∧
    cr_validation_set call = validation_set a ∧
    cr_l2_penalty call = l2_penalty a ∧
    cr_l1_penalty call = l1_penalty a ∧
    cr_feature_rescaling call = feature_rescaling a ∧
    cr_convergence_threshold call = convergence_threshold a ∧
    cr_step_size call = step_size a ∧
    cr_lbfgs_memory_level call = lbfgs_memory_level a ∧
    cr_max_iterations call = max_iterations a ∧
    cr_class_weights call = class_weights a.
Proof.
  unfold submit_training_job, create, track; simpl.
  eexists. split; [reflexivity|]. simpl. split_and!; try done.
  intros Hlower Hascii. by apply Hlower.
Qed.

Lemma submit_training_job_forwards_witness :
  ∃ call,
    created (submit_training_job lower sample_backend (sample_args "L-BFGS")
               no_services).2 = [call] ∧
    cr_solver call = "l-bfgs" ∧
    lowercase_of "L-BFGS" (cr_solver call).
Proof.
  destruct (submit_training_job_forwards lower sample_backend
              (sample_args "L-BFGS") no_services)
    as (call & Hcreated & _ & _ & Hsolver & Hlowercase & _).
  exists call. split_and!.
  - exact Hcreated.
  - exact Hsolver.
  - apply Hlowercase; [apply lower_lowers_ascii_text | reflexivity].
Defined.

(** * Further properties of the code *)

(** ** When the resolver raises *)



(** X3: started in a frame that has no caller, the resolver falls back to
    its own frame and scans its own locals; as its parameter [var] is
    bound to the target there, it answers with the name [var] when that
    binding comes first. *)
Theorem resolver_without_caller_scans_itself
    (room : nat) (c : frame) (var : pyref) :
  f_back c = None →
  final_frame room (Some c) = Some c ∧
  _find_variable_name room (Some c) var
  = Ret (scan_locals (f_locals c) var) ∧
  (∀ rest, f_locals c = ("var", var) :: rest →
           _find_variable_name room (Some c) var = Ret (Some "var", var)).
Proof.
  intros Hback.
  assert (final_frame room (Some c) = Some c) as Hfinal.
  { unfold final_frame, two_frames_up. simpl. by rewrite Hback. }
  split_and!; [done | by rewrite find_variable_name_unfold, Hfinal |].
  intros rest Hlocals. rewrite find_variable_name_unfold, Hfinal, Hlocals.
  f_equal. apply scan_locals_first. exists [], rest. by split_and!.
Qed.

Lemma resolver_without_caller_scans_itself_witness :
  final_frame 999 (Some resolver_alone) = Some resolver_alone ∧
  _find_variable_name 999 (Some resolver_alone) data_obj
  = Ret (scan_locals (f_locals resolver_alone) data_obj) ∧
  (∀ rest, f_locals resolver_alone = ("var", data_obj) :: rest →
           _find_variable_name 999 (Some resolver_alone) data_obj
           = Ret (Some "var", data_obj)).
Proof.
  apply (resolver_without_caller_scans_itself 999 resolver_alone data_obj).
  reflexivity.
Defined.

(** X4: when the resolver has a caller, the frame it scans lies at least
    two levels up its own stack: it is never the resolver's own frame nor
    the frame of its caller. *)
Theorem chosen_frame_is_two_levels_up (room : nat) (c caller chosen : frame) :
  f_back c = Some caller →
  final_frame room (Some c) = Some chosen →
  chosen ∈ frame_chain c ∧
  stack_depth chosen + 2 ≤ stack_depth c ∧
  chosen ≠ c ∧ chosen ≠ caller.
Proof.
  intros Hc Hfinal.
  destruct (f_back caller) as [start|] eqn:Hcaller.
  - assert (two_frames_up (Some c) = Ret (Some start)) as Hup.
    { unfold two_frames_up. simpl. rewrite Hc. simpl. by rewrite Hcaller. }
    rewrite (final_frame_start _ _ _ Hup) in Hfinal. injection Hfinal as Hchosen.
    assert (chosen ∈ frame_chain start) as Hin.
    { destruct (__climb_frame_stack room (Some start)) as [g|] eqn:Hclimb;
        subst chosen.
      - by eapply climb_ret_in_chain.
      - apply frame_chain_self. }
    pose proof (frame_chain_depth _ _ Hin) as Hdepth.
    pose proof (stack_depth_parent _ _ Hc) as Hdc.
    pose proof (stack_depth_parent _ _ Hcaller) as Hdw.
    split_and!.
    + rewrite (frame_chain_unfold c), Hc. simpl.
      rewrite (frame_chain_unfold caller), Hcaller. simpl.
      by do 2 right.
    + lia.
    + intros ->. lia.
    + intros ->. lia.
  - unfold final_frame, two_frames_up in Hfinal. simpl in Hfinal.
    rewrite Hc in Hfinal. simpl in Hfinal. rewrite Hcaller in Hfinal.
    by destruct (climb_none room) as [e He]; rewrite He in Hfinal.
Qed.

Lemma chosen_frame_is_two_levels_up_witness :
  thread_run ∈ frame_chain
    (Frame [("var", data_obj)] "_find_variable_name"
       (Some (Frame [("var", data_obj); ("target", canvas_target)] "find_vars"
          (Some thread_run)))) ∧
  stack_depth thread_run + 2
  ≤ stack_depth
      (Frame [("var", data_obj)] "_find_variable_name"
         (Some (Frame [("var", data_obj); ("target", canvas_target)] "find_vars"
            (Some thread_run)))) ∧
  thread_run ≠ Frame [("var", data_obj)] "_find_variable_name"
       (Some (Frame [("var", data_obj); ("target", canvas_target)] "find_vars"
          (Some thread_run))) ∧
  thread_run ≠ Frame [("var", data_obj); ("target", canvas_target)] "find_vars"
          (Some thread_run).
Proof.
  apply (chosen_frame_is_two_levels_up 995
           (Frame [("var", data_obj)] "_find_variable_name"
              (Some (Frame [("var", data_obj); ("target", canvas_target)]
                       "find_vars" (Some thread_run))))
           (Frame [("var", data_obj); ("target", canvas_target)] "find_vars"
              (Some thread_run))
           thread_run); reflexivity.
Defined.

(** ** The scan and the iteration order *)

(** X5: scanning a dictionary whose items come in two runs gives the
    match of the first run when it has one and the result of the second
    run otherwise: bindings that follow the first match play no role. *)
Theorem scan_locals_app (d1 d2 : dict) (var : pyref) :
  scan_locals (d1 ++ d2) var =
  match (scan_locals d1 var).1 with
  | Some _ => scan_locals d1 var
  | None => scan_locals d2 var
  end.
Proof.
  induction d1 as [|[k v] d1 IH]; [done|].
  rewrite <- app_comm_cons, !scan_locals_cons. by case_decide.
Qed.

(** X6: the bindings whose names start with an underscore can be removed
    from the dictionary without changing the result of the scan. *)
Theorem scan_locals_ignores_underscore_names (d : dict) (var : pyref) :
  scan_locals d var
  = scan_locals (filter (λ item, startswith item.1 "_" = false) d) var.
Proof.
  induction d as [|[k v] d IH]; [done|].
  rewrite filter_cons. case_decide as Hk; simpl in Hk.
  - rewrite !scan_locals_cons. by case_decide.
  - rewrite scan_locals_cons, decide_False; [done|]. by intros [? _].
Qed.

(** X7: when the target has exactly one name in the dictionary that does
    not start with an underscore, the scan returns that name whatever the
    iteration order of the dictionary is. *)
Theorem single_name_found_in_any_order (d d' : dict) (var : pyref) (n : string) :
  d ≡ₚ d' →
  (n, var) ∈ d →
  startswith n "_" = false →
  (∀ k, (k, var) ∈ d → startswith k "_" = false → k = n) →
  scan_locals d' var = (Some n, var).
Proof.
  intros Hperm Hin Hn Honly.
  rewrite Hperm in Hin.
  destruct (first_binding_exists _ _ _ Hin Hn) as [m Hm].
  rewrite (scan_locals_first _ _ _ Hm).
  apply first_binding_elem_of in Hm as [Hm Hvisible].
  rewrite <- Hperm in Hm. by rewrite (Honly m Hm Hvisible).
Qed.

Lemma single_name_found_in_any_order_witness :
  scan_locals [("data", data_obj); ("_", data_obj); ("other", PyObj 3)] data_obj
  = (Some "data", data_obj).
Proof.
  apply (single_name_found_in_any_order
           [("_", data_obj); ("other", PyObj 3); ("data", data_obj)]).
  - symmetry.
    apply (Permutation_cons_append [("_", data_obj); ("other", PyObj 3)]).
  - apply list_elem_of_In. simpl. auto.
  - reflexivity.
  - intros k [[= ->]|[[=]|[[= ->]|[]%elem_of_nil]%elem_of_cons]%elem_of_cons]%elem_of_cons;
      [discriminate | done].
Defined.

(** ** Names the resolver cannot return *)

Example thread_resolves_self :
  find_vars (room_for 1000 in_thread_run_self) in_thread_run_self thread_obj []
  = (Ret (Some "self"), [(["self"], thread_obj)]).
Proof. reflexivity. Qed.

(** X8: when the walk up the stack succeeds, the frame that is scanned
    binds no [self] and runs no function with [show] in its name, so the
    name [self] is never returned; it can be returned only after a
    failed walk, from the frame the resolver falls back to. *)
Theorem successful_walk_never_returns_self
    (room : nat) (currentframe : option frame) (chosen : frame) (var : pyref) :
  stack_walk room currentframe = Ret chosen →
  final_frame room currentframe = Some chosen ∧
  ¬ skips chosen ∧
  ∀ n v, _find_variable_name room currentframe var = Ret (Some n, v) →
         n ≠ "self".
Proof.
  intros (start & Hup & Hclimb)%stack_walk_ret.
  assert (final_frame room currentframe = Some chosen) as Hfinal.
  { by rewrite (final_frame_start _ _ _ Hup), Hclimb. }
  apply climb_ret in Hclimb as (_ & _ & _ & Hchosen & _).
  split_and!; [done | done |].
  intros n v. rewrite find_variable_name_unfold, Hfinal.
  destruct (scan_locals_cases (f_locals chosen) var)
    as [(m & [Hin _]%first_binding_elem_of & ->)|[_ ->]]; [|done].
  intros [= <- <-] ->. apply Hchosen. left. by exists var.
Qed.

Lemma successful_walk_never_returns_self_witness :
  final_frame 995 (through_two_methods script_locals data_obj)
  = Some (user_module script_locals) ∧
  ¬ skips (user_module script_locals) ∧
  ∀ n v,
    _find_variable_name 995 (through_two_methods script_locals data_obj)
      data_obj = Ret (Some n, v) → n ≠ "self".
Proof.
  apply (successful_walk_never_returns_self 995
           (through_two_methods script_locals data_obj)
           (user_module script_locals) data_obj).
  reflexivity.
Defined.

(** ** Repeated registration *)

(** X9: [find_vars] keeps every earlier registration and adds at most
    one; it does not look at what the target already holds, so a second
    call from the same place returns the same name and registers it a
    second time. *)
Theorem find_vars_twice_registers_twice
    (room : nat) (currentframe : option frame) (var : pyref)
    (log : target_log) :
  ∃ new,
    (find_vars room currentframe var log).2 = log ++ new ∧
    length new ≤ 1 ∧
    find_vars room currentframe var (find_vars room currentframe var log).2
    = ((find_vars room currentframe var log).1, log ++ new ++ new).
Proof.
  rewrite !find_vars_unfold.
  destruct (_find_variable_name room currentframe var) as [[[n|] v]|e]; simpl.
  - exists [([n], v)]. split_and!; [done | simpl; lia |].
    by rewrite <- app_assoc.
  - exists []. rewrite !app_nil_r. split_and!; [done | simpl; lia | done].
  - exists []. rewrite !app_nil_r. split_and!; [done | simpl; lia | done].
Qed.

(** ** The solver name of a training job *)

Example solver_names_that_differ_in_case :
  submit_training_job lower sample_backend (sample_args "LBFGS") no_services
  = submit_training_job lower sample_backend (sample_args "lbfgs") no_services.
Proof. reflexivity. Qed.

(** X10: the solver name is not case sensitive: two jobs whose solver
    names have the same lowercase form, all other arguments being the
    same, make the same backend call and give the same result; a name and
    its lowercase form are interchangeable as soon as lowering the
    lowercase form changes nothing, as is the case of ASCII names. *)
Theorem solver_name_is_case_insensitive
    (str_lower : string → string) (sl_create : create_call → exc pyref)
    (a : training_args) (s1 s2 : string) (w : services) :
  str_lower s1 = str_lower s2 →
  submit_training_job str_lower sl_create (with_solver s1 a) w
  = submit_training_job str_lower sl_create (with_solver s2 a) w ∧
  (str_lower (str_lower s1) = str_lower s1 →
   submit_training_job str_lower sl_create (with_solver (str_lower s1) a) w
   = submit_training_job str_lower sl_create (with_solver s2 a) w).
Proof.
  intros Hlower. unfold submit_training_job, create, track; simpl.
  split; [by rewrite Hlower|]. intros ->. by rewrite Hlower.
Qed.

Lemma solver_name_is_case_insensitive_witness :
  submit_training_job lower sample_backend
    (with_solver "Newton" (sample_args "auto")) no_services
  = submit_training_job lower sample_backend
      (with_solver "NEWTON" (sample_args "auto")) no_services ∧
  submit_training_job lower sample_backend
    (with_solver (lower "Newton") (sample_args "auto")) no_services
  = submit_training_job lower sample_backend
      (with_solver "NEWTON" (sample_args "auto")) no_services.
Proof.
  destruct (solver_name_is_case_insensitive lower sample_backend
              (sample_args "auto") "Newton" "NEWTON" no_services eq_refl)
    as [Hsame Hlowered].
  split; [exact Hsame | apply Hlowered, lower_idempotent].
Defined.

(** X11: when [str.lower] puts ASCII text in lowercase character by
    character and the solver name is ASCII, the name that reaches the
    backend has the length of the one given and holds no capital letter;
    it is the name given, character for character, exactly when that
    name holds no capital. *)
Theorem backend_solver_has_no_capital
    (str_lower : string → string) (sl_create : create_call → exc pyref)
    (a : training_args) (w : services) :
  lowers_ascii_text str_lower →
  is_ascii (solver a) = true →
  ∃ call,
    created (submit_training_job str_lower sl_create a w).2
    = created w ++ [call] ∧
    has_upper (cr_solver call) = false ∧
    String.length (cr_solver call) = String.length (solver a) ∧
    (cr_solver call = solver a ↔ has_upper (solver a) = false).
Proof.
  intros Hlower Hascii%Hlower%lowercase_of_lower.
  unfold submit_training_job, create, track; simpl.
  eexists. split; [reflexivity|]. simpl. rewrite Hascii.
  split_and!; [apply has_upper_lower | apply lower_length | apply lower_fixed_iff].
Qed.

Lemma backend_solver_has_no_capital_witness :
  ∃ call,
    created (submit_training_job lower sample_backend (sample_args "L-BFGS")
               no_services).2 = created no_services ++ [call] ∧
    has_upper (cr_solver call) = false ∧
    String.length (cr_solver call) = String.length "L-BFGS" ∧
    (cr_solver call = "L-BFGS" ↔ has_upper "L-BFGS" = false).
Proof.
  apply (backend_solver_has_no_capital lower sample_backend
           (sample_args "L-BFGS") no_services).
  - apply lower_lowers_ascii_text.
  - reflexivity.
Defined.
